(** * Scavenger hunt: the interaction flow of [src/app/index.tsx]

    A shallow embedding of the component [Index]: its seven state cells, the
    handlers that update them ([handleDeepLink], [handleBarCodeScanned],
    [fetchQuestionData], [submitAnswer], [resetForNextQuestion],
    [startScanning]) and the conditions under which the render function shows
    each part of the screen.

    Handlers are computations in a small monad that threads the session,
    records what the handler does to the outside world (alerts, console
    output, HTTP requests) and propagates JavaScript exceptions, so that
    [try]/[catch]/[finally] is modelled as written. *)

From stdpp Require Import gmap strings list fin_maps pretty.

Set Warnings "-register-all".

(** ** JavaScript values

    The question payload is whatever [response.json()] yields, so it is kept
    dynamically typed; an object is the finite map of its properties.
    Numbers are only ever tested for truthiness by the flow; the integers
    are modelled.  A string is the sequence of its characters. *)

Inductive value : Type :=
  | VUndefined
  | VNull
  | VBool (b : bool)
  | VNum (n : Z)
  | VStr (s : string)
  | VArr (l : list value)
  | VObj (o : gmap string value).

(** ToBoolean, as used by [!x], [x && y] and JSX guards. *)
Definition truthy (v : value) : bool :=
  match v with
  | VUndefined | VNull => false
  | VBool b => b
  | VNum n => negb (n =? 0)%Z
  | VStr s => negb (String.eqb s "")
  | VArr _ | VObj _ => true
  end.

(** Property read [o.k]: a missing property reads as [undefined]. *)
Definition get_prop (o : gmap string value) (k : string) : value :=
  default VUndefined (o !! k).

(** Own enumerable properties copied by the object spread [{...data}]:
    those of an object, the indexed elements of an array, the indexed
    characters of a string, and nothing for the other primitives. *)
Definition indexed (l : list value) : gmap string value :=
  list_to_map (imap (λ (i : nat) v, (pretty i, v)) l).

Definition chars (s : string) : list value :=
  (λ c, VStr (String c EmptyString)) <$> String.list_ascii_of_string s.

Definition spread (data : value) : gmap string value :=
  match data with
  | VObj o => o
  | VArr l => indexed l
  | VStr s => indexed (chars s)
  | VUndefined | VNull | VBool _ | VNum _ => ∅
  end.

(** [s.includes(search)]: [search] occurs in [s] as a contiguous run. *)
Fixpoint includes (s search : string) : bool :=
  String.prefix search s ||
  match s with
  | EmptyString => false
  | String _ rest => includes rest search
  end.

(** [String.prototype.toLowerCase] belongs to the JavaScript runtime; the
    flow depends on it only through equality of lowered strings. *)
Class StringRuntime := { toLowerCase : string → string }.

(** The runtime restricted to ASCII letters, used to run the model. *)
Definition ascii_toLowerCase (s : string) : string :=
  String.string_of_list_ascii
    ((λ c, let n := Ascii.nat_of_ascii c in
           if (65 <=? n)%nat && (n <=? 90)%nat
           then Ascii.ascii_of_nat (n + 32) else c)
     <$> String.list_ascii_of_string s).

Definition ascii_runtime : StringRuntime := {| toLowerCase := ascii_toLowerCase |}.

(** ** Exceptions and effects *)

Inductive Exn : Type :=
  | TypeError (message : string)
  | SyntaxError (message : string).

(** Callbacks that the component hands to an alert button. *)
Inductive Callback : Type :=
  | CbResetForNextQuestion.

Record AlertButton : Type := { text : string; onPress : Callback }.

Inductive Method : Type := GET | POST.

Inductive Effect : Type :=
  | Alert (title message : string) (buttons : list AlertButton)
  | ConsoleError (label : string) (error : Exn)
  | HttpRequest (method : Method) (url : string) (body : option value).

Definition is_request (e : Effect) : bool :=
  match e with HttpRequest _ _ _ => true | _ => false end.

Definition is_post (e : Effect) : bool :=
  match e with HttpRequest POST _ _ => true | _ => false end.

Definition is_alert (e : Effect) : bool :=
  match e with Alert _ _ _ => true | _ => false end.

(** ** The session: the [useState] cells of [Index] (lines 28-34) *)

Record Session : Type := {
  hasPermission : option bool;
  scanned : bool;
  showCamera : bool;
  questionData : option (gmap string value);
  loading : bool;
  selectedAnswer : value;
  showResult : bool;
}.

Definition initial : Session :=
  {| hasPermission := None; scanned := false; showCamera := false;
     questionData := None; loading := false; selectedAnswer := VNull;
     showResult := false |}.

Definition with_scanned (b : bool) (s : Session) : Session :=
  {| hasPermission := hasPermission s; scanned := b;
     showCamera := showCamera s; questionData := questionData s;
     loading := loading s; selectedAnswer := selectedAnswer s;
     showResult := showResult s |}.

Definition with_showCamera (b : bool) (s : Session) : Session :=
  {| hasPermission := hasPermission s; scanned := scanned s;
     showCamera := b; questionData := questionData s;
     loading := loading s; selectedAnswer := selectedAnswer s;
     showResult := showResult s |}.

Definition with_questionData (q : option (gmap string value)) (s : Session)
  : Session :=
  {| hasPermission := hasPermission s; scanned := scanned s;
     showCamera := showCamera s; questionData := q;
     loading := loading s; selectedAnswer := selectedAnswer s;
     showResult := showResult s |}.

Definition with_loading (b : bool) (s : Session) : Session :=
  {| hasPermission := hasPermission s; scanned := scanned s;
     showCamera := showCamera s; questionData := questionData s;
     loading := b; selectedAnswer := selectedAnswer s;
     showResult := showResult s |}.

Definition with_selectedAnswer (v : value) (s : Session) : Session :=
  {| hasPermission := hasPermission s; scanned := scanned s;
     showCamera := showCamera s; questionData := questionData s;
     loading := loading s; selectedAnswer := v;
     showResult := showResult s |}.

Definition with_showResult (b : bool) (s : Session) : Session :=
  {| hasPermission := hasPermission s; scanned := scanned s;
     showCamera := showCamera s; questionData := questionData s;
     loading := loading s; selectedAnswer := selectedAnswer s;
     showResult := b |}.

(** ** The handler monad *)

Inductive Completion (A : Type) : Type :=
  | Normal (a : A)
  | Throw (e : Exn).
Arguments Normal {A} a.
Arguments Throw {A} e.

Record Run (A : Type) : Type := {
  final : Session;
  trace : list Effect;
  completion : Completion A;
}.
Arguments Build_Run {A} _ _ _.
Arguments final {A} _.
Arguments trace {A} _.
Arguments completion {A} _.

Definition M (A : Type) : Type := Session → Run A.

#[export] Instance M_ret : MRet M := λ A a s,
  {| final := s; trace := []; completion := Normal a |}.

#[export] Instance M_bind : MBind M := λ A B k m s,
  let r := m s in
  match completion r with
  | Normal a =>
      let r' := k a (final r) in
      {| final := final r'; trace := trace r ++ trace r';
         completion := completion r' |}
  | Throw e => {| final := final r; trace := trace r; completion := Throw e |}
  end.

Definition throw {A : Type} (e : Exn) : M A := λ s,
  {| final := s; trace := []; completion := Throw e |}.

Definition lift {A : Type} (c : Completion A) : M A := λ s,
  {| final := s; trace := []; completion := c |}.

Definition emit (e : Effect) : M unit := λ s,
  {| final := s; trace := [e]; completion := Normal () |}.

Definition update (f : Session → Session) : M unit := λ s,
  {| final := f s; trace := []; completion := Normal () |}.

Definition read {A : Type} (f : Session → A) : M A := λ s,
  {| final := s; trace := []; completion := Normal (f s) |}.

(** [try { body } catch (error) { handler error } finally { finalizer }] *)
Definition try_catch_finally (body : M unit) (handler : Exn → M unit)
    (finalizer : M unit) : M unit := λ s,
  let r := body s in
  let r1 :=
    match completion r with
    | Normal _ => r
    | Throw e =>
        let h := handler e (final r) in
        {| final := final h; trace := trace r ++ trace h;
           completion := completion h |}
    end in
  let f := finalizer (final r1) in
  {| final := final f; trace := trace r1 ++ trace f;
     completion :=
       match completion f with
       | Normal _ => completion r1
       | Throw e => Throw e
       end |}.

(** State setters and platform calls, named as in the source. *)
Definition setScanned b : M unit := update (with_scanned b).
Definition setShowCamera b : M unit := update (with_showCamera b).
Definition setQuestionData q : M unit := update (with_questionData q).
Definition setLoading b : M unit := update (with_loading b).
Definition setSelectedAnswer v : M unit := update (with_selectedAnswer v).
Definition setShowResult b : M unit := update (with_showResult b).

Definition Alert_alert (title message : string) (buttons : list AlertButton)
  : M unit := emit (Alert title message buttons).
Definition console_error (label : string) (error : Exn) : M unit :=
  emit (ConsoleError label error).

(** ** Promises

    A promise settles to a completion; [await] resumes normally with the
    value or rethrows the rejection at the point of the [await]. *)
Definition await {A : Type} (settled : Completion A) : M A := lift settled.

(** What a fetched [Response] offers to the flow: the outcome of
    [response.json()]. *)
Record Response : Type := { json : Completion value }.

(** [fetch(url)] with no options is a GET without body. *)
Definition fetch (url : string) : M unit := emit (HttpRequest GET url None).

(** ** The handlers *)

Definition answerUrl : string :=
  "https://570d48f7-91ae-415a-8502-441c37cc0760.mock.pstmn.io/answer".

(** The object literal of line 76: [{ ...data, url: answerUrl, Answer: 'blue' }]. *)
Definition stored_question (data : value) : gmap string value :=
  <["Answer" := VStr "blue"]> (<["url" := VStr answerUrl]> (spread data)).

(** [fetchQuestionData] (lines 68-85), run against the settlement [reply]
    of [fetch(url)]. *)
Definition fetchQuestionData (url : string) (reply : Completion Response)
  : M unit :=
  setLoading true;;
  try_catch_finally
    (fetch url;;
     response ← await reply;
     data ← await (json response);
     setQuestionData (Some (stored_question data));;
     setSelectedAnswer VNull;;
     setShowResult false)
    (λ error,
       Alert_alert "Error" "Failed to fetch question data." [];;
       console_error "Fetch error:" error)
    (setLoading false).

(** A caller that does not await [fetchQuestionData(url)] runs it up to its
    first [await]; the rest runs when the request settles. *)
Definition fetchQuestionData_started (url : string) : M unit :=
  setLoading true;;
  fetch url.

Definition fetchQuestionData_resumed (reply : Completion Response) : M unit :=
  try_catch_finally
    (response ← await reply;
     data ← await (json response);
     setQuestionData (Some (stored_question data));;
     setSelectedAnswer VNull;;
     setShowResult false)
    (λ error,
       Alert_alert "Error" "Failed to fetch question data." [];;
       console_error "Fetch error:" error)
    (setLoading false).

(** [handleDeepLink] (lines 36-40). *)
Definition handleDeepLink (url : string) : M unit :=
  if truthy (VStr url) && includes url "postman.com"
  then fetchQuestionData_started url
  else mret ().

(** [handleBarCodeScanned] (lines 56-66). *)
Definition handleBarCodeScanned (data : string) : M unit :=
  setScanned true;;
  setShowCamera false;;
  if includes data "postman.com" || includes data "http"
  then fetchQuestionData_started data
  else
    (Alert_alert "Invalid QR Code" "Please scan a valid scavenger hunt QR code" [];;
     setScanned false).

(** [v.toLowerCase()]: only a string has the method; a call on any other
    value raises a [TypeError]. *)
Definition call_toLowerCase `{StringRuntime} (v : value) : Completion string :=
  match v with
  | VStr s => Normal (toLowerCase s)
  | _ => Throw (TypeError "toLowerCase is not a function")
  end.

(** [v?.toLowerCase()]: [undefined] (here [None]) when [v] is nullish. *)
Definition optional_toLowerCase `{StringRuntime} (v : value)
  : Completion (option string) :=
  match v with
  | VUndefined | VNull => Normal None
  | _ =>
      match call_toLowerCase v with
      | Normal s => Normal (Some s)
      | Throw e => Throw e
      end
  end.

(** Line 92:
    [selectedAnswer.toLowerCase() === questionData.Answer?.toLowerCase()]. *)
Definition isCorrect `{StringRuntime} (selectedAnswer : value)
    (questionData : gmap string value) : Completion bool :=
  match call_toLowerCase selectedAnswer with
  | Normal a =>
      match optional_toLowerCase (get_prop questionData "Answer") with
      | Normal e => Normal (bool_decide (Some a = e))
      | Throw err => Throw err
      end
  | Throw err => Throw err
  end.

(** [submitAnswer] (lines 87-110).  The function contains no [await]: it
    runs to completion inside the press that invokes it. *)
Definition submitAnswer `{StringRuntime} : M unit :=
  selected ← read selectedAnswer;
  question ← read questionData;
  if negb (truthy selected) then mret () else
  match question with
  | None => mret ()
  | Some q =>
      if negb (truthy (get_prop q "url")) then mret () else
      setLoading true;;
      try_catch_finally
        (correct ← lift (isCorrect selected q);
         if correct : bool
         then
           (Alert_alert "Correct!" "Great job! You got it right!"
              [{| text := "Next Question"; onPress := CbResetForNextQuestion |}];;
            setShowResult true)
         else
           Alert_alert "Incorrect" "Try again!" [])
        (λ error,
           Alert_alert "Error" "Failed to submit answer." [];;
           console_error "Submit error:" error)
        (setLoading false)
  end.

(** [resetForNextQuestion] (lines 112-117). *)
Definition resetForNextQuestion : M unit :=
  setQuestionData None;;
  setSelectedAnswer VNull;;
  setShowResult false;;
  setScanned false.

(** [startScanning] (lines 119-122). *)
Definition startScanning : M unit :=
  setShowCamera true;;
  setScanned false.

Definition run_callback (cb : Callback) : M unit :=
  match cb with
  | CbResetForNextQuestion => resetForNextQuestion
  end.

(** ** What the render function shows (lines 124-266)

    [screen] names the branch of the render function that the cells select.
    It says which part of the screen the component sets out to render, not
    that the stored payload can be drawn: a question container whose payload
    has, say, an object where text is expected is still classified here. *)

Inductive Screen : Type :=
  | RequestingPermission   (* line 124 *)
  | NoCameraAccess         (* line 132 *)
  | Scanning               (* line 146: the camera view *)
  | Loading                (* line 173: only the activity indicator *)
  | Idle                   (* line 180: the welcome container *)
  | QuestionShown          (* line 197: the question container *)
  | ResultShown.           (* line 247: question container with the result *)

Definition screen (s : Session) : Screen :=
  match hasPermission s with
  | None => RequestingPermission
  | Some false => NoCameraAccess
  | Some true =>
      if showCamera s then Scanning
      else if loading s then Loading
      else match questionData s with
           | None => Idle
           | Some _ => if showResult s then ResultShown else QuestionShown
           end
  end.

Definition questionContainer_rendered (s : Session) : bool :=
  match screen s with
  | QuestionShown | ResultShown => true
  | _ => false
  end.

(** The choices offered by the question container (lines 210-233): the
    elements of [choices] when [responseType] is "multipleChoice".  Only an
    array has the [map] that builds the buttons; for any other truthy value
    of [choices] the call of line 213 throws and no button comes to exist,
    which is why it yields no button here. *)
Definition choices_rendered (s : Session) : list value :=
  match questionData s with
  | Some q =>
      match get_prop q "responseType", get_prop q "choices" with
      | VStr t, VArr l => if String.eqb t "multipleChoice" then l else []
      | _, _ => []
      end
  | None => []
  end.

(** The controls of the main screens.  The "Grant Permission" button of the
    denied screen (lines 136-141), whose press asks the platform for the
    permission again and stores nothing, is not among them. *)
Inductive Control : Type :=
  | ScanButton               (* line 188 *)
  | CancelButton             (* line 157 *)
  | ChoiceButton (index : nat)  (* line 214 *)
  | SubmitButton             (* line 236 *)
  | NewScanButton.           (* line 256 *)

Definition rendered (c : Control) (s : Session) : bool :=
  match c with
  | ScanButton => match screen s with Idle => true | _ => false end
  | CancelButton => match screen s with Scanning => true | _ => false end
  | ChoiceButton i =>
      questionContainer_rendered s && bool_decide (i < length (choices_rendered s))
  | SubmitButton => questionContainer_rendered s && truthy (selectedAnswer s)
  | NewScanButton => questionContainer_rendered s
  end.

(** Only the submit button carries a [disabled] prop (line 239). *)
Definition disabled (c : Control) (s : Session) : bool :=
  match c with
  | SubmitButton => loading s
  | _ => false
  end.

Definition handler_of `{StringRuntime} (c : Control) : M unit :=
  match c with
  | ScanButton | NewScanButton => startScanning
  | CancelButton => setShowCamera false
  | ChoiceButton i =>
      choices ← read choices_rendered;
      match choices !! i with
      | Some choice => setSelectedAnswer choice
      | None => mret ()
      end
  | SubmitButton => submitAnswer
  end.

(** An event that reaches no handler leaves everything as it is. *)
Definition noop : M unit := mret ().

(** A press reaches the handler only through a control that is on screen
    and not disabled. *)
Definition press `{StringRuntime} (c : Control) : M unit := λ s,
  if rendered c s && negb (disabled c s) then handler_of c s else noop s.

(** The camera view reports a decoded code to [handleBarCodeScanned] unless
    [scanned] is set (line 152).  [onBarcodeScanned data s] is the delivery
    of a code to the prop as rendered from [s]; a code delivered to a prop
    rendered earlier reaches [handleBarCodeScanned] directly. *)
Definition onBarcodeScanned (data : string) : M unit := λ s,
  match screen s with
  | Scanning => if scanned s then noop s else handleBarCodeScanned data s
  | _ => noop s
  end.

(** ** Vocabulary of the statements *)

(** [search] occurs in [s]: some text, then [search], then some text. *)
Definition contains (s search : string) : Prop :=
  ∃ before after : string, s = before +:+ search +:+ after.

(** A scanned payload counts as a hunt code when it contains one of the two
    markers tested on line 60. *)
Definition recognized (data : string) : Prop :=
  contains data "http" ∨ contains data "postman.com".

(** The run of a handler that did nothing. *)
Definition nothing_happened (s : Session) : Run unit :=
  {| final := s; trace := []; completion := Normal () |}.

(** A session with the camera open and nothing else going on. *)
Definition scanning : Session :=
  {| hasPermission := Some true; scanned := false; showCamera := true;
     questionData := None; loading := false; selectedAnswer := VNull;
     showResult := false |}.

(** The HTTP requests and the alerts among the effects of a run. *)
Definition requests_of (t : list Effect) : list Effect := List.filter is_request t.
Definition alerts_of (t : list Effect) : list Effect := List.filter is_alert t.

(** The value stored under [k] in the session's question, if any. *)
Definition stored_prop (k : string) (s : Session) : option value :=
  q ← questionData s; q !! k.

(** ** Sample data

    The payload of the hunt's example question, a payload in which the
    service supplies its own endpoint and answer, and sessions showing the
    example question. *)

Definition sample_payload : value :=
  VObj (<["question" := VStr "Pick a color"]>
        (<["responseType" := VStr "multipleChoice"]>
         (<["choices" := VArr [VStr "red"; VStr "blue"; VStr "green"]]> ∅))).

Definition server_payload : value :=
  VObj (<["question" := VStr "Pick a color"]>
        (<["url" := VStr "https://hunt.example/answer"]>
         (<["Answer" := VStr "red"]> ∅))).

Definition numeric_payload : value :=
  VObj (<["question" := VStr "Pick a number"]>
        (<["responseType" := VStr "multipleChoice"]>
         (<["choices" := VArr [VNum 1; VNum 2]]> ∅))).

Definition showing (payload : value) (answer : value) (result : bool)
  : Session :=
  {| hasPermission := Some true; scanned := true; showCamera := false;
     questionData := Some (stored_question payload); loading := false;
     selectedAnswer := answer; showResult := result |}.

Definition ok_response (data : value) : Completion Response :=
  Normal {| json := Normal data |}.

(** ** The reward shown with the result (line 251)

    [questionData.pointsRewarded?.[0] || 10].  The optional index reads
    element 0 of an array, the first character of a string, property "0" of
    an object, and [undefined] from anything else. *)

Definition optional_first (v : value) : value :=
  match v with
  | VUndefined | VNull => VUndefined
  | VArr l => default VUndefined (l !! 0%nat)
  | VStr s =>
      match s with
      | EmptyString => VUndefined
      | String c _ => VStr (String c EmptyString)
      end
  | VObj o => get_prop o "0"
  | VBool _ | VNum _ => VUndefined
  end.

Definition points_shown (q : gmap string value) : value :=
  let first := optional_first (get_prop q "pointsRewarded") in
  if truthy first then first else VNum 10.

(** ** The component as a reactive system

    Everything that can make [Index] run code: the permission request of the
    mount effect settling (lines 43-46), a URL arriving through the listener
    or as the initial URL (lines 48-51), a press on a control, a decoded code
    from the camera view (line 152), a pending fetch settling, and a press on
    an alert button.  The environment is taken at its most permissive: a URL,
    a settlement of a pending request or an alert button press may come at
    any moment. *)

Definition with_hasPermission (p : option bool) (s : Session) : Session :=
  {| hasPermission := p; scanned := scanned s;
     showCamera := showCamera s; questionData := questionData s;
     loading := loading s; selectedAnswer := selectedAnswer s;
     showResult := showResult s |}.

Definition setHasPermission p : M unit := update (with_hasPermission p).

Inductive Event : Type :=
  | PermissionSettled (granted : bool)
  | UrlOpened (url : string)
  | Pressed (c : Control)
  | BarcodeScanned (data : string)
  | FetchSettled (reply : Completion Response)
  | AlertButtonPressed (cb : Callback).

Definition react `{StringRuntime} (e : Event) : M unit :=
  match e with
  | PermissionSettled granted => setHasPermission (Some granted)
  | UrlOpened url => handleDeepLink url
  | Pressed c => press c
  | BarcodeScanned data => onBarcodeScanned data
  | FetchSettled reply => fetchQuestionData_resumed reply
  | AlertButtonPressed cb => run_callback cb
  end.

(** The session together with the number of requests that were issued and
    have not settled yet. *)
Record World : Type := { session : Session; inflight : nat }.

Definition start : World := {| session := initial; inflight := 0 |}.

Definition step `{StringRuntime} (e : Event) (w : World) : World :=
  match e, inflight w with
  | FetchSettled _, 0 => w
  | FetchSettled _, S n =>
      {| session := final (react e (session w)); inflight := n |}
  | _, n =>
      let r := react e (session w) in
      {| session := final r; inflight := n + length (requests_of (trace r)) |}
  end.

Definition run `{StringRuntime} (events : list Event) : World :=
  foldl (λ w e, step e w) start events.

Inductive reachable `{StringRuntime} : World → Prop :=
  | reachable_start : reachable start
  | reachable_step (e : Event) (w : World) :
      reachable w → reachable (step e w).

(** Events that replace or drop the stored question: a fetch settling with
    a decoded body, and the "Next Question" button. *)
Definition renews (e : Event) : bool :=
  match e with
  | FetchSettled (Normal {| json := Normal _ |}) => true
  | AlertButtonPressed CbResetForNextQuestion => true
  | _ => false
  end.

(** What holds of the session throughout a run. *)
Definition sound `{StringRuntime} (s : Session) : Prop :=
  (showCamera s = true → scanned s = false)
  ∧ (∀ q, questionData s = Some q →
       q !! "url" = Some (VStr answerUrl) ∧ q !! "Answer" = Some (VStr "blue"))
  ∧ (questionData s = None → selectedAnswer s = VNull ∧ showResult s = false)
  ∧ (selectedAnswer s = VNull ∨ selectedAnswer s ∈ choices_rendered s)
  ∧ (showResult s = true →
       ∃ a, VStr a ∈ choices_rendered s ∧ toLowerCase a = toLowerCase "blue").

Definition consistent `{StringRuntime} (w : World) : Prop :=
  sound (session w) ∧ (loading (session w) = true → 0 < inflight w).

(** The hunt's example played through: permission, scan, fetch, choice,
    submit. *)
Definition example_events : list Event :=
  [PermissionSettled true;
   Pressed ScanButton;
   BarcodeScanned "https://example.mock.pstmn.io/q1";
   FetchSettled (ok_response sample_payload);
   Pressed (ChoiceButton 1);
   Pressed SubmitButton].

(** The example up to the question screen, followed by a press on "Scan
    Next QR Code": the camera is open over a stored question. *)
Definition rescan_events : list Event :=
  take 4 example_events ++ [Pressed NewScanButton].

(** [s'] is [s] with [loading] cleared and every other cell as it was. *)
Definition settled_as (s s' : Session) : Prop :=
  loading s' = false
  ∧ hasPermission s' = hasPermission s
  ∧ scanned s' = scanned s
  ∧ showCamera s' = showCamera s
  ∧ questionData s' = questionData s
  ∧ selectedAnswer s' = selectedAnswer s
  ∧ showResult s' = showResult s.

(** [s'] is [s] with the camera closed and [scanned] unset, and every other
    cell as it was. *)
Definition camera_closed_as (s s' : Session) : Prop :=
  showCamera s' = false
  ∧ scanned s' = false
  ∧ hasPermission s' = hasPermission s
  ∧ questionData s' = questionData s
  ∧ loading s' = loading s
  ∧ selectedAnswer s' = selectedAnswer s
  ∧ showResult s' = showResult s.

(** ** Strings *)

Lemma prefix_iff_app (p s : string) :
  String.prefix p s = true ↔ ∃ after, s = p +:+ after.
Proof.
  revert s. induction p as [|c p IH]; intros s; simpl.
  - split; [intros _; by exists s | by destruct s].
  - destruct s as [|d s]; simpl.
    + split; [done | intros [after Heq]; discriminate].
    + destruct (Ascii.ascii_dec c d) as [->|Hne].
      * rewrite IH. split; intros [after Heq]; exists after.
        -- by rewrite Heq.
        -- by injection Heq.
      * split; [done | intros [after Heq]; injection Heq; congruence].
Qed.

Lemma includes_iff_contains (s search : string) :
  includes s search = true ↔ contains s search.
Proof.
  unfold contains. induction s as [|c s IH].
  - change (includes "" search) with (String.prefix search "" || false).
    rewrite orb_false_r, prefix_iff_app. split.
    + intros [after Heq]. by exists "", after.
    + intros [[|b before] [after Heq]]; [by exists after | discriminate].
  - change (includes (String c s) search)
      with (String.prefix search (String c s) || includes s search).
    rewrite orb_true_iff, prefix_iff_app, IH. split.
    + intros [[after Heq] | (before & after & Heq)].
      * by exists "", after.
      * exists (String c before), after. simpl. by rewrite Heq.
    + intros ([|b before] & after & Heq).
      * left. by exists after.
      * right. exists before, after. simpl in Heq. by injection Heq.
Qed.

Lemma includes_false_iff (s search : string) :
  includes s search = false ↔ ¬ contains s search.
Proof.
  rewrite <- includes_iff_contains. by destruct (includes s search).
Qed.

(** ** Runs of the handlers *)

Lemma fetchQuestionData_split (url : string) (reply : Completion Response)
    (s : Session) :
  fetchQuestionData url reply s
  = (fetchQuestionData_started url;; fetchQuestionData_resumed reply) s.
Proof. by destruct reply as [[[data|e]]|e]. Qed.

Lemma fetchQuestionData_stored (url : string) (data : value) (s : Session) :
  fetchQuestionData url (ok_response data) s
  = {| final :=
         with_loading false
           (with_showResult false
              (with_selectedAnswer VNull
                 (with_questionData (Some (stored_question data))
                    (with_loading true s))));
       trace := [HttpRequest GET url None];
       completion := Normal () |}.
Proof. reflexivity. Qed.

Lemma fetchQuestionData_rejected (url : string) (e : Exn) (s : Session) :
  fetchQuestionData url (Throw e) s
  = {| final := with_loading false s;
       trace := [HttpRequest GET url None;
                 Alert "Error" "Failed to fetch question data." [];
                 ConsoleError "Fetch error:" e];
       completion := Normal () |}.
Proof. by destruct s. Qed.

Lemma fetchQuestionData_undecodable (url : string) (e : Exn) (s : Session) :
  fetchQuestionData url (Normal {| json := Throw e |}) s
  = {| final := with_loading false s;
       trace := [HttpRequest GET url None;
                 Alert "Error" "Failed to fetch question data." [];
                 ConsoleError "Fetch error:" e];
       completion := Normal () |}.
Proof. by destruct s. Qed.

(** Past its guard, [submitAnswer] is driven by [isCorrect] alone. *)
Lemma submitAnswer_passed `{StringRuntime} (s : Session)
    (q : gmap string value) :
  truthy (selectedAnswer s) = true →
  questionData s = Some q →
  truthy (get_prop q "url") = true →
  submitAnswer s =
    match isCorrect (selectedAnswer s) q with
    | Normal true =>
        {| final := with_loading false (with_showResult true s);
           trace := [Alert "Correct!" "Great job! You got it right!"
                       [{| text := "Next Question";
                           onPress := CbResetForNextQuestion |}]];
           completion := Normal () |}
    | Normal false =>
        {| final := with_loading false s;
           trace := [Alert "Incorrect" "Try again!" []];
           completion := Normal () |}
    | Throw e =>
        {| final := with_loading false s;
           trace := [Alert "Error" "Failed to submit answer." [];
                     ConsoleError "Submit error:" e];
           completion := Normal () |}
    end.
Proof.
  intros Hsel Hq Hurl. unfold submitAnswer, mbind, M_bind, read. simpl.
  rewrite Hsel, Hq. simpl. rewrite Hurl. simpl.
  unfold try_catch_finally, lift. simpl.
  destruct (isCorrect (selectedAnswer s) q) as [[|]|e]; by destruct s.
Qed.

Lemma submitAnswer_blocked `{StringRuntime} (s : Session) :
  truthy (selectedAnswer s) = false
  ∨ questionData s = None
  ∨ (∃ q, questionData s = Some q ∧ truthy (get_prop q "url") = false) →
  submitAnswer s = nothing_happened s.
Proof.
  unfold submitAnswer, mbind, M_bind, read. simpl.
  intros [Hsel | [Hq | (q & Hq & Hurl)]].
  - by rewrite Hsel.
  - rewrite Hq. by destruct (truthy (selectedAnswer s)).
  - rewrite Hq, Hurl. by destruct (truthy (selectedAnswer s)).
Qed.

Lemma screen_not_loading (s : Session) :
  screen s = Idle ∨ screen s = QuestionShown ∨ screen s = ResultShown →
  loading s = false ∧ showCamera s = false ∧ hasPermission s = Some true.
Proof.
  unfold screen.
  destruct (hasPermission s) as [[|]|], (showCamera s), (loading s);
    intros [?|[?|?]]; by try discriminate.
Qed.

Lemma with_loading_same (s : Session) :
  loading s = false → with_loading false s = s.
Proof. destruct s; simpl. by intros ->. Qed.

Lemma truthy_nonempty (a : string) : a ≠ "" → truthy (VStr a) = true.
Proof. intros Ha. simpl. by apply negb_true_iff, String.eqb_neq. Qed.

Lemma with_loading_showResult (s : Session) :
  loading s = false →
  with_loading false (with_showResult true s) = with_showResult true s.
Proof. destruct s; simpl. by intros ->. Qed.

(** * Submitting an answer *)

(** C1, as stated, fails: a wrong non-empty answer ("red" against the
    expected "blue") is judged incorrect and the question screen stays, but
    the selected answer is still "red" afterwards, not unset. *)
Lemma wrong_answer_keeps_selection :
  let s := showing sample_payload (VStr "red") false in
  let r := @submitAnswer ascii_runtime s in
  @isCorrect ascii_runtime (VStr "red") (stored_question sample_payload)
    = Normal false
  ∧ screen (final r) = QuestionShown
  ∧ selectedAnswer (final r) ≠ VNull.
Proof. by vm_compute. Qed.

(** C1, amended: on the question screen, with a stored question that has a
    submission url and a string expected answer, submitting a non-empty
    string that equals the expected answer up to letter case is judged
    correct, announces it and shows the result; any other non-empty string is
    judged incorrect, raises the "try again" notice and leaves the whole
    session as it was: the question is kept and so is the selected answer. *)
Theorem submitAnswer_verdict `{StringRuntime} (s : Session)
    (q : gmap string value) (a e : string) :
  screen s = QuestionShown →
  questionData s = Some q →
  truthy (get_prop q "url") = true →
  get_prop q "Answer" = VStr e →
  selectedAnswer s = VStr a →
  a ≠ "" →
  (toLowerCase a = toLowerCase e →
     isCorrect (VStr a) q = Normal true
     ∧ submitAnswer s =
         {| final := with_showResult true s;
            trace := [Alert "Correct!" "Great job! You got it right!"
                        [{| text := "Next Question";
                            onPress := CbResetForNextQuestion |}]];
            completion := Normal () |}
     ∧ screen (with_showResult true s) = ResultShown)
  ∧ (toLowerCase a ≠ toLowerCase e →
     isCorrect (VStr a) q = Normal false
     ∧ submitAnswer s =
         {| final := s;
            trace := [Alert "Incorrect" "Try again!" []];
            completion := Normal () |}
     ∧ screen (final (submitAnswer s)) = QuestionShown
     ∧ questionData (final (submitAnswer s)) = Some q
     ∧ selectedAnswer (final (submitAnswer s)) = VStr a).
Proof.
  intros Hscreen Hq Hurl Hans Hsel Ha.
  destruct (screen_not_loading s) as (Hload & Hcam & Hperm); [by auto|].
  assert (Hverdict : isCorrect (VStr a) q
            = Normal (bool_decide (toLowerCase a = toLowerCase e))).
  { unfold isCorrect. simpl. rewrite Hans. simpl. f_equal.
    apply bool_decide_ext. split; congruence. }
  assert (Hrun := submitAnswer_passed s q).
  rewrite Hsel, Hverdict in Hrun.
  specialize (Hrun (truthy_nonempty a Ha) Hq Hurl).
  split; intros Hcase.
  - rewrite bool_decide_eq_true_2 in Hrun, Hverdict by done.
    rewrite Hrun, with_loading_showResult by done.
    split_and!; [done..|].
    unfold screen. simpl. by rewrite Hperm, Hcam, Hload, Hq.
  - rewrite bool_decide_eq_false_2 in Hrun, Hverdict by done.
    rewrite Hrun, with_loading_same by done. simpl. by split_and!.
Qed.

Lemma submitAnswer_verdict_witness :
  screen (final (@submitAnswer ascii_runtime
                   (showing sample_payload (VStr "BLUE") false)))
    = ResultShown
  ∧ selectedAnswer (final (@submitAnswer ascii_runtime
                             (showing sample_payload (VStr "green") false)))
    = VStr "green".
Proof.
  split.
  - destruct (@submitAnswer_verdict ascii_runtime
                (showing sample_payload (VStr "BLUE") false)
                (stored_question sample_payload) "BLUE" "blue"
                eq_refl eq_refl eq_refl eq_refl eq_refl ltac:(discriminate))
      as [Hcorrect _].
    destruct (Hcorrect eq_refl) as (_ & Hrun & Hscreen).
    rewrite Hrun. exact Hscreen.
  - destruct (@submitAnswer_verdict ascii_runtime
                (showing sample_payload (VStr "green") false)
                (stored_question sample_payload) "green" "blue"
                eq_refl eq_refl eq_refl eq_refl eq_refl ltac:(discriminate))
      as [_ Hwrong].
    destruct (Hwrong ltac:(vm_compute; discriminate)) as (_ & _ & _ & _ & Hkept).
    exact Hkept.
Defined.

(** C3, as stated, fails: submitting the correct answer "blue" announces
    the verdict and issues no POST to the stored endpoint, whatever body is
    looked for. *)
Lemma submit_sends_no_post :
  let s := showing sample_payload (VStr "blue") false in
  let r := @submitAnswer ascii_runtime s in
  stored_prop "url" s = Some (VStr answerUrl)
  ∧ ¬ ∃ body, HttpRequest POST answerUrl body ∈ trace r.
Proof.
  split; [reflexivity|]. intros [body Hin]. vm_compute in Hin.
  apply list_elem_of_In in Hin. simpl in Hin. by destruct Hin.
Qed.

(** C3, amended: a submit issues no HTTP request of any kind, and what it
    announces is decided by the selected answer and the stored question
    alone: two sessions that agree on both produce the same effects. *)
Theorem submitAnswer_is_local `{StringRuntime} (s : Session) :
  requests_of (trace (submitAnswer s)) = []
  ∧ ∀ s' : Session,
      selectedAnswer s' = selectedAnswer s →
      questionData s' = questionData s →
      trace (submitAnswer s') = trace (submitAnswer s).
Proof.
  assert (Hshape : ∀ t : Session,
    trace (submitAnswer t) =
      if truthy (selectedAnswer t) then
        match questionData t with
        | Some q =>
            if truthy (get_prop q "url") then
              match isCorrect (selectedAnswer t) q with
              | Normal true =>
                  [Alert "Correct!" "Great job! You got it right!"
                     [{| text := "Next Question";
                         onPress := CbResetForNextQuestion |}]]
              | Normal false => [Alert "Incorrect" "Try again!" []]
              | Throw e =>
                  [Alert "Error" "Failed to submit answer." [];
                   ConsoleError "Submit error:" e]
              end
            else []
        | None => []
        end
      else []).
  { intros t.
    destruct (truthy (selectedAnswer t)) eqn:Hsel;
      [|by rewrite submitAnswer_blocked by auto].
    destruct (questionData t) as [q|] eqn:Hq;
      [|by rewrite submitAnswer_blocked by auto].
    destruct (truthy (get_prop q "url")) eqn:Hurl;
      [|by rewrite submitAnswer_blocked by eauto].
    rewrite (submitAnswer_passed t q) by done.
    by destruct (isCorrect (selectedAnswer t) q) as [[|]|]. }
  split.
  - rewrite Hshape. repeat case_match; reflexivity.
  - intros s' Hsel Hq. by rewrite !Hshape, Hsel, Hq.
Qed.

Lemma submitAnswer_is_local_witness :
  trace (@submitAnswer ascii_runtime (showing sample_payload (VStr "green") true))
  = trace (@submitAnswer ascii_runtime (showing sample_payload (VStr "green") false)).
Proof.
  apply (@submitAnswer_is_local ascii_runtime
           (showing sample_payload (VStr "green") false)); reflexivity.
Defined.

(** * Fetching a question *)

(** C2, as stated, fails: when the service supplies its own [url] and
    [Answer], the stored question does not keep them. *)
Lemma server_supplied_fields_overwritten :
  let r := fetchQuestionData "https://hunt.example/q1"
             (ok_response server_payload) initial in
  spread server_payload !! "url" = Some (VStr "https://hunt.example/answer")
  ∧ spread server_payload !! "Answer" = Some (VStr "red")
  ∧ stored_prop "url" (final r) ≠ spread server_payload !! "url"
  ∧ stored_prop "Answer" (final r) ≠ spread server_payload !! "Answer".
Proof. by vm_compute. Qed.

(** C2, amended: for every payload of a successful fetch the stored
    question carries the fixed answer endpoint as [url] and the fixed
    expected answer "blue" as [Answer], whether or not the service supplied
    values of its own; every other field is the payload's. *)
Theorem fetchQuestionData_fixed_fields (url : string) (data : value)
    (s : Session) :
  let s' := final (fetchQuestionData url (ok_response data) s) in
  stored_prop "url" s' = Some (VStr answerUrl)
  ∧ stored_prop "Answer" s' = Some (VStr "blue")
  ∧ ∃ q, questionData s' = Some q
       ∧ delete "url" (delete "Answer" q)
         = delete "url" (delete "Answer" (spread data)).
Proof.
  rewrite fetchQuestionData_stored. unfold stored_prop, stored_question.
  simpl. split_and!.
  - rewrite lookup_insert_ne by done. by rewrite lookup_insert_eq.
  - by rewrite lookup_insert_eq.
  - eexists. split; [done|].
    rewrite delete_insert_eq. by rewrite delete_insert_ne, delete_insert_eq.
Qed.

(** C4, as stated, fails: a JSON payload without a [question] field, and a
    multiple-choice payload without choices, are both stored as the current
    question, and no failure is surfaced. *)
Lemma payload_without_question_is_stored :
  let empty := VObj ∅ in
  let no_choices :=
    VObj (<["question" := VStr "Pick a color"]>
          (<["responseType" := VStr "multipleChoice"]> ∅)) in
  let run data :=
    fetchQuestionData "https://hunt.example/q1" (ok_response data) initial in
  stored_prop "question" (final (run empty)) = None
  ∧ questionData (final (run empty)) ≠ None
  ∧ alerts_of (trace (run empty)) = []
  ∧ stored_prop "choices" (final (run no_choices)) = None
  ∧ questionData (final (run no_choices)) ≠ None
  ∧ alerts_of (trace (run no_choices)) = [].
Proof. by vm_compute. Qed.

(** C4, amended: every payload that decodes as JSON is stored as the
    current question, without any check of its fields and without a notice;
    when the request fails in transport, or its body does not decode, the
    failure path is taken: one "Error" alert is surfaced, the error is
    logged, and nothing is stored; in every case exactly one request was
    issued. *)
Theorem fetchQuestionData_outcomes (url : string) (s : Session) :
  (∀ data : value,
     let r := fetchQuestionData url (ok_response data) s in
     questionData (final r) = Some (stored_question data)
     ∧ trace r = [HttpRequest GET url None]
     ∧ alerts_of (trace r) = []
     ∧ completion r = Normal ())
  ∧ (∀ e : Exn,
       let r := fetchQuestionData url (Throw e) s in
       questionData (final r) = questionData s
       ∧ trace r = [HttpRequest GET url None;
                    Alert "Error" "Failed to fetch question data." [];
                    ConsoleError "Fetch error:" e]
       ∧ alerts_of (trace r) = [Alert "Error" "Failed to fetch question data." []]
       ∧ completion r = Normal ())
  ∧ (∀ e : Exn,
       let r := fetchQuestionData url (Normal {| json := Throw e |}) s in
       questionData (final r) = questionData s
       ∧ trace r = [HttpRequest GET url None;
                    Alert "Error" "Failed to fetch question data." [];
                    ConsoleError "Fetch error:" e]
       ∧ alerts_of (trace r) = [Alert "Error" "Failed to fetch question data." []]
       ∧ completion r = Normal ())
  ∧ (∀ reply : Completion Response,
       requests_of (trace (fetchQuestionData url reply s))
       = [HttpRequest GET url None]).
Proof.
  split_and!.
  - intros data. by rewrite fetchQuestionData_stored.
  - intros e. by rewrite fetchQuestionData_rejected.
  - intros e. by rewrite fetchQuestionData_undecodable.
  - intros [[[data|e]]|e].
    + done.
    + by rewrite fetchQuestionData_undecodable.
    + by rewrite fetchQuestionData_rejected.
Qed.

(** * Moving on to the next question *)

(** C5, as stated, fails: from the result screen, the "Next Question"
    action leaves the camera closed; the welcome screen is shown, not the
    scanner. *)
Lemma next_question_does_not_scan :
  let s := showing sample_payload (VStr "blue") true in
  let r := run_callback CbResetForNextQuestion s in
  screen s = ResultShown
  ∧ showCamera (final r) = false
  ∧ screen (final r) = Idle
  ∧ screen (final r) ≠ Scanning.
Proof. by vm_compute. Qed.

(** C5, amended: from the result screen, the "Next Question" action
    unsets the current question, the selected answer and the result flag
    (and [scanned]) and shows the welcome screen, Idle, with the camera
    closed; the scanner is shown only once [startScanning] runs. *)
Theorem resetForNextQuestion_idle (s : Session) :
  screen s = ResultShown →
  let r := run_callback CbResetForNextQuestion s in
  questionData (final r) = None
  ∧ selectedAnswer (final r) = VNull
  ∧ showResult (final r) = false
  ∧ scanned (final r) = false
  ∧ showCamera (final r) = false
  ∧ screen (final r) = Idle
  ∧ trace r = []
  ∧ screen (final (startScanning (final r))) = Scanning.
Proof.
  intros Hscreen.
  destruct (screen_not_loading s) as (Hload & Hcam & Hperm); [by auto|].
  unfold screen. simpl. by rewrite Hperm, Hcam, Hload.
Qed.

Lemma resetForNextQuestion_idle_witness :
  screen (final (run_callback CbResetForNextQuestion
                   (showing sample_payload (VStr "blue") true))) = Idle.
Proof.
  apply (resetForNextQuestion_idle (showing sample_payload (VStr "blue") true)).
  reflexivity.
Defined.

(** * Scanning a code and following a deep link *)

Lemma handleBarCodeScanned_run (data : string) (s : Session) :
  handleBarCodeScanned data s =
    if includes data "postman.com" || includes data "http"
    then {| final := with_loading true (with_showCamera false (with_scanned true s));
            trace := [HttpRequest GET data None];
            completion := Normal () |}
    else {| final := with_scanned false (with_showCamera false s);
            trace := [Alert "Invalid QR Code"
                        "Please scan a valid scavenger hunt QR code" []];
            completion := Normal () |}.
Proof.
  unfold handleBarCodeScanned, mbind, M_bind. simpl.
  by destruct (includes data "postman.com" || includes data "http").
Qed.

Lemma handleDeepLink_run (url : string) (s : Session) :
  handleDeepLink url s =
    if includes url "postman.com"
    then {| final := with_loading true s;
            trace := [HttpRequest GET url None];
            completion := Normal () |}
    else nothing_happened s.
Proof.
  unfold handleDeepLink. destruct url as [|c url]; [done|].
  change (truthy (VStr (String c url))) with true.
  rewrite andb_true_l. by destruct (includes (String c url) "postman.com").
Qed.

Lemma recognized_iff_includes (data : string) :
  recognized data ↔ includes data "postman.com" || includes data "http" = true.
Proof.
  unfold recognized. rewrite orb_true_iff, !includes_iff_contains. tauto.
Qed.

(** C6, as stated, fails: with the scanner opened from the question
    container, a payload with neither marker closes the camera back onto the
    question, not onto the welcome screen. *)
Lemma invalid_code_over_question :
  let s := session (@run ascii_runtime rescan_events) in
  let r := handleBarCodeScanned "hunt-clue-17" s in
  screen s = Scanning
  ∧ includes "hunt-clue-17" "http" = false
  ∧ includes "hunt-clue-17" "postman.com" = false
  ∧ screen (final r) = QuestionShown
  ∧ screen (final r) ≠ Idle.
Proof. by vm_compute. Qed.

(** C6, amended: a scanned payload triggers the question fetch on it
    exactly when it contains "http" or "postman.com"; a payload with neither
    raises the invalid-code notice, issues no request, closes the camera and
    unsets [scanned], leaving every other cell as it was; from the camera
    view the session then lands on the welcome screen, Idle, exactly when it
    holds no question and nothing is loading. *)
Theorem handleBarCodeScanned_recognition (data : string) (s : Session) :
  let r := handleBarCodeScanned data s in
  (recognized data ↔ HttpRequest GET data None ∈ trace r)
  ∧ (¬ recognized data →
       completion r = Normal ()
       ∧ trace r = [Alert "Invalid QR Code"
                      "Please scan a valid scavenger hunt QR code" []]
       ∧ requests_of (trace r) = []
       ∧ camera_closed_as s (final r)
       ∧ (screen s = Scanning →
          (screen (final r) = Idle
           ↔ questionData s = None ∧ loading s = false))).
Proof.
  cbv zeta. rewrite handleBarCodeScanned_run, recognized_iff_includes.
  destruct (includes data "postman.com" || includes data "http"); simpl.
  - split; [|done]. split; [intros _; apply list_elem_of_here | done].
  - split.
    + split; [done|]. intros Hin. apply list_elem_of_In in Hin.
      simpl in Hin. by destruct Hin.
    + intros _. split_and!; [done..| |].
      * by unfold camera_closed_as.
      * unfold screen. simpl. intros Hscan.
        destruct (hasPermission s) as [[|]|]; [|done..].
        destruct (loading s), (questionData s) as [q|]; simpl;
          try destruct (showResult s); split; try done;
          intros [? ?]; done.
Qed.

Lemma handleBarCodeScanned_recognition_witness :
  trace (handleBarCodeScanned "hunt-clue-17" scanning)
    = [Alert "Invalid QR Code" "Please scan a valid scavenger hunt QR code" []]
  ∧ screen (final (handleBarCodeScanned "hunt-clue-17" scanning)) = Idle
  ∧ screen (final (handleBarCodeScanned "hunt-clue-17"
                     (session (@run ascii_runtime rescan_events)))) ≠ Idle.
Proof.
  assert (Hnot : ¬ recognized "hunt-clue-17").
  { intros Hrec. apply recognized_iff_includes in Hrec. vm_compute in Hrec.
    discriminate. }
  destruct (handleBarCodeScanned_recognition "hunt-clue-17" scanning)
    as [_ Hinvalid].
  destruct (Hinvalid Hnot) as (_ & Htrace & _ & _ & Hidle).
  destruct (handleBarCodeScanned_recognition "hunt-clue-17"
              (session (@run ascii_runtime rescan_events)))
    as [_ Hover].
  destruct (Hover Hnot) as (_ & _ & _ & _ & Hlanding).
  split_and!.
  - exact Htrace.
  - apply Hidle; [reflexivity | split; reflexivity].
  - intros Hland. apply (Hlanding eq_refl) in Hland as [Hq _].
    vm_compute in Hq. discriminate.
Defined.

(** C10: a deep link triggers the question fetch exactly when it contains
    "postman.com"; a deep link without it is ignored without any effect or
    change, even when it contains "http", whereas "http" alone makes a
    scanned payload trigger the fetch. *)
Theorem handleDeepLink_stricter (url : string) (s : Session) :
  (contains url "postman.com"
   ↔ HttpRequest GET url None ∈ trace (handleDeepLink url s))
  ∧ (¬ contains url "postman.com" → handleDeepLink url s = nothing_happened s)
  ∧ (contains url "http" →
     HttpRequest GET url None ∈ trace (handleBarCodeScanned url s)).
Proof.
  rewrite handleDeepLink_run, handleBarCodeScanned_run.
  rewrite <- !includes_iff_contains.
  destruct (includes url "postman.com"); simpl.
  - split_and!; [|done|intros _; apply list_elem_of_here].
    split; [intros _; apply list_elem_of_here | done].
  - split_and!; [|done|intros ->; apply list_elem_of_here].
    split; [done|]. intros Hin. apply list_elem_of_In in Hin.
    simpl in Hin. by destruct Hin.
Qed.

Lemma handleDeepLink_stricter_witness :
  handleDeepLink "https://hunt.example/q1" initial = nothing_happened initial
  ∧ HttpRequest GET "https://hunt.example/q1" None
    ∈ trace (handleBarCodeScanned "https://hunt.example/q1" initial).
Proof.
  destruct (handleDeepLink_stricter "https://hunt.example/q1" initial)
    as (_ & Hignored & Hscan).
  split.
  - apply Hignored. intros Hin. apply includes_iff_contains in Hin.
    vm_compute in Hin. discriminate.
  - apply Hscan. apply includes_iff_contains. vm_compute. reflexivity.
Defined.

(** * Failures, guards and the loading flag *)

(** A choice that is not a string can be selected when the service sends
    one; submitting it is the way to reach the [catch] of [submitAnswer]. *)
Example numeric_choice_selectable :
  final (@press ascii_runtime (ChoiceButton 0) (showing numeric_payload VNull false))
  = showing numeric_payload (VNum 1) false.
Proof. reflexivity. Qed.

(** C7, as stated, fails: a fetch that fails while the result is shown
    leaves the session on the result screen, neither Idle nor QuestionShown;
    and a payload that decodes but has no field at all is no error: no
    notice is raised and the question stored before is replaced. *)
Lemma failed_fetch_keeps_result_screen :
  let s := session (@run ascii_runtime example_events) in
  let failed :=
    fetchQuestionData "https://example.mock.pstmn.io/q2"
      (Throw (TypeError "Network request failed")) s in
  let malformed :=
    fetchQuestionData "https://example.mock.pstmn.io/q2"
      (ok_response (VObj ∅)) s in
  screen s = ResultShown
  ∧ screen (final failed) = ResultShown
  ∧ screen (final failed) ≠ Idle
  ∧ screen (final failed) ≠ QuestionShown
  ∧ alerts_of (trace malformed) = []
  ∧ questionData (final malformed) ≠ questionData s.
Proof. by vm_compute. Qed.

(** C7, amended: a fetch whose request is rejected or whose body does not
    decode, and a submit in which an exception is thrown, end normally with
    one alert, leave [loading] cleared and every other cell as it was, so
    that a session that was not loading is exactly as before the action,
    whichever screen it was on (welcome, question or result); an
    unrecognized code ends normally with one alert, closes the camera, and
    changes nothing else.  A payload that decodes is never an error,
    whatever fields it lacks: it raises no notice and becomes the stored
    question. *)
Theorem errors_are_contained `{StringRuntime} (s : Session) :
  (∀ (url : string) (e : Exn),
     let r := fetchQuestionData url (Throw e) s in
     completion r = Normal ()
     ∧ alerts_of (trace r) = [Alert "Error" "Failed to fetch question data." []]
     ∧ settled_as s (final r)
     ∧ (loading s = false → final r = s))
  ∧ (∀ (url : string) (e : Exn),
       let r := fetchQuestionData url (Normal {| json := Throw e |}) s in
       completion r = Normal ()
       ∧ alerts_of (trace r) = [Alert "Error" "Failed to fetch question data." []]
       ∧ settled_as s (final r)
       ∧ (loading s = false → final r = s))
  ∧ (∀ (q : gmap string value) (e : Exn),
       truthy (selectedAnswer s) = true →
       questionData s = Some q →
       truthy (get_prop q "url") = true →
       isCorrect (selectedAnswer s) q = Throw e →
       let r := submitAnswer s in
       completion r = Normal ()
       ∧ alerts_of (trace r) = [Alert "Error" "Failed to submit answer." []]
       ∧ settled_as s (final r)
       ∧ (loading s = false → final r = s))
  ∧ (∀ data : string,
       ¬ recognized data →
       let r := handleBarCodeScanned data s in
       completion r = Normal ()
       ∧ alerts_of (trace r)
         = [Alert "Invalid QR Code" "Please scan a valid scavenger hunt QR code" []]
       ∧ camera_closed_as s (final r))
  ∧ (∀ (url : string) (data : value),
       let r := fetchQuestionData url (ok_response data) s in
       completion r = Normal ()
       ∧ alerts_of (trace r) = []
       ∧ questionData (final r) = Some (stored_question data)).
Proof.
  split_and!.
  - intros url e. rewrite fetchQuestionData_rejected.
    split_and!; [done..| |apply with_loading_same]. by unfold settled_as.
  - intros url e. rewrite fetchQuestionData_undecodable.
    split_and!; [done..| |apply with_loading_same]. by unfold settled_as.
  - intros q e Hsel Hq Hurl Hthrow. cbv zeta.
    rewrite (submitAnswer_passed s q), Hthrow by done.
    split_and!; [done..| |apply with_loading_same]. by unfold settled_as.
  - intros data Hrec. cbv zeta. rewrite handleBarCodeScanned_run.
    rewrite recognized_iff_includes in Hrec.
    by destruct (includes data "postman.com" || includes data "http").
  - intros url data. by rewrite fetchQuestionData_stored.
Qed.

Lemma errors_are_contained_witness :
  let s := showing numeric_payload (VNum 1) false in
  final (@submitAnswer ascii_runtime s) = s
  ∧ alerts_of (trace (@submitAnswer ascii_runtime s))
    = [Alert "Error" "Failed to submit answer." []]
  ∧ final (fetchQuestionData "https://example.mock.pstmn.io/q2"
             (Throw (TypeError "Network request failed")) s) = s
  ∧ showCamera (final (handleBarCodeScanned "hunt-clue-17" scanning)) = false.
Proof.
  destruct (@errors_are_contained ascii_runtime
              (showing numeric_payload (VNum 1) false))
    as (Hfetch & _ & Hsubmit & _ & _).
  destruct (Hsubmit (stored_question numeric_payload)
              (TypeError "toLowerCase is not a function")
              eq_refl eq_refl eq_refl eq_refl)
    as (_ & Halerts & _ & Hsame).
  destruct (Hfetch "https://example.mock.pstmn.io/q2"
              (TypeError "Network request failed"))
    as (_ & _ & _ & Hback).
  destruct (@errors_are_contained ascii_runtime scanning)
    as (_ & _ & _ & Hcode & _).
  destruct (Hcode "hunt-clue-17") as (_ & _ & Hclosed & _).
  { intros Hrec. apply recognized_iff_includes in Hrec. vm_compute in Hrec.
    discriminate. }
  cbv zeta. split_and!.
  - apply Hsame. reflexivity.
  - exact Halerts.
  - apply Hback. reflexivity.
  - exact Hclosed.
Defined.

(** C8: when no answer is selected, or no question is stored, or the
    stored question has no submission url, submit does nothing at all: no
    field changes and nothing is announced or sent. *)
Theorem submitAnswer_guard `{StringRuntime} (s : Session) :
  truthy (selectedAnswer s) = false
  ∨ questionData s = None
  ∨ (∃ q, questionData s = Some q ∧ truthy (get_prop q "url") = false) →
  submitAnswer s = nothing_happened s
  ∧ final (submitAnswer s) = s
  ∧ loading (final (submitAnswer s)) = loading s.
Proof.
  intros Hguard. by rewrite submitAnswer_blocked.
Qed.

Lemma submitAnswer_guard_witness :
  let unselected := showing sample_payload VNull false in
  let no_url :=
    with_questionData (Some (spread sample_payload))
      (showing sample_payload (VStr "blue") false) in
  @submitAnswer ascii_runtime unselected = nothing_happened unselected
  ∧ @submitAnswer ascii_runtime initial = nothing_happened initial
  ∧ @submitAnswer ascii_runtime no_url = nothing_happened no_url.
Proof.
  cbv zeta. split_and!.
  - apply (@submitAnswer_guard ascii_runtime). left. reflexivity.
  - apply (@submitAnswer_guard ascii_runtime). right. left. reflexivity.
  - apply (@submitAnswer_guard ascii_runtime). right. right.
    exists (spread sample_payload). split; reflexivity.
Defined.

(** C9: while [loading] is set the submit button is not on screen, and a
    submit trigger changes nothing and has no effect; and since a submit
    runs to completion inside its own press, it never leaves [loading] set
    behind it for a later press to meet. *)
Theorem submit_unavailable_while_loading `{StringRuntime} (s : Session) :
  (loading s = true →
     rendered SubmitButton s = false
     ∧ disabled SubmitButton s = true
     ∧ press SubmitButton s = nothing_happened s)
  ∧ (loading s = false → loading (final (press SubmitButton s)) = false).
Proof.
  split.
  - intros Hload.
    assert (Hnot : rendered SubmitButton s = false).
    { unfold rendered, questionContainer_rendered, screen. rewrite Hload.
      by destruct (hasPermission s) as [[|]|], (showCamera s). }
    split_and!; [done..|]. unfold press. by rewrite Hnot.
  - intros Hload. unfold press.
    destruct (rendered SubmitButton s && negb (disabled SubmitButton s));
      [|done].
    simpl handler_of.
    destruct (truthy (selectedAnswer s)) eqn:Hsel;
      [|by rewrite submitAnswer_blocked by auto].
    destruct (questionData s) as [q|] eqn:Hq;
      [|by rewrite submitAnswer_blocked by auto].
    destruct (truthy (get_prop q "url")) eqn:Hurl;
      [|by rewrite submitAnswer_blocked by eauto].
    rewrite (submitAnswer_passed s q) by done.
    by destruct (isCorrect (selectedAnswer s) q) as [[|]|].
Qed.

Lemma submit_unavailable_while_loading_witness :
  let busy := with_loading true (showing sample_payload (VStr "blue") false) in
  @press ascii_runtime SubmitButton busy = nothing_happened busy
  ∧ loading (final (@press ascii_runtime SubmitButton
                      (showing sample_payload (VStr "blue") false))) = false.
Proof.
  cbv zeta. split.
  - apply (@submit_unavailable_while_loading ascii_runtime
             (with_loading true (showing sample_payload (VStr "blue") false))).
    reflexivity.
  - apply (@submit_unavailable_while_loading ascii_runtime
             (showing sample_payload (VStr "blue") false)).
    reflexivity.
Defined.

(** * The component as a whole *)

Lemma fetchQuestionData_resumed_stored (data : value) (s : Session) :
  fetchQuestionData_resumed (ok_response data) s
  = {| final :=
         with_loading false
           (with_showResult false
              (with_selectedAnswer VNull
                 (with_questionData (Some (stored_question data)) s)));
       trace := [];
       completion := Normal () |}.
Proof. reflexivity. Qed.

Lemma fetchQuestionData_resumed_failed (reply : Completion Response)
    (s : Session) :
  (∀ data, reply ≠ ok_response data) →
  ∃ e, fetchQuestionData_resumed reply s
       = {| final := with_loading false s;
            trace := [Alert "Error" "Failed to fetch question data." [];
                      ConsoleError "Fetch error:" e];
            completion := Normal () |}.
Proof.
  intros Hfailed. destruct reply as [[[data|e]]|e].
  - by destruct (Hfailed data).
  - by exists e.
  - by exists e.
Qed.

Lemma isCorrect_true `{StringRuntime} (v : value) (q : gmap string value) :
  isCorrect v q = Normal true →
  ∃ a e, v = VStr a ∧ get_prop q "Answer" = VStr e
         ∧ toLowerCase a = toLowerCase e.
Proof.
  unfold isCorrect.
  destruct v as [| | | |a| |]; simpl; try discriminate.
  destruct (get_prop q "Answer") as [| | | |e| |]; simpl; try discriminate;
    intros Heq; injection Heq as Heq; apply bool_decide_eq_true_1 in Heq;
    try discriminate.
  exists a, e. split_and!; [done..|congruence].
Qed.

(** The three ways a submit can end. *)
Lemma submitAnswer_cases `{StringRuntime} (s : Session) :
  submitAnswer s = nothing_happened s
  ∨ (final (submitAnswer s) = with_loading false s
     ∧ requests_of (trace (submitAnswer s)) = [])
  ∨ (∃ q, questionData s = Some q
          ∧ isCorrect (selectedAnswer s) q = Normal true
          ∧ final (submitAnswer s) = with_loading false (with_showResult true s)
          ∧ requests_of (trace (submitAnswer s)) = []).
Proof.
  destruct (truthy (selectedAnswer s)) eqn:Hsel;
    [|left; apply submitAnswer_blocked; auto].
  destruct (questionData s) as [q|] eqn:Hq;
    [|left; apply submitAnswer_blocked; auto].
  destruct (truthy (get_prop q "url")) eqn:Hurl;
    [|left; apply submitAnswer_blocked; eauto].
  right. rewrite (submitAnswer_passed s q) by done.
  destruct (isCorrect (selectedAnswer s) q) as [[|]|] eqn:Hverdict.
  - right. by exists q.
  - by left.
  - by left.
Qed.

(** [sound] looks at five cells only. *)
Lemma sound_same_cells `{StringRuntime} (s s' : Session) :
  scanned s' = scanned s →
  showCamera s' = showCamera s →
  questionData s' = questionData s →
  selectedAnswer s' = selectedAnswer s →
  showResult s' = showResult s →
  sound s → sound s'.
Proof.
  unfold sound, choices_rendered. by intros -> -> -> -> ->.
Qed.

Lemma sound_camera `{StringRuntime} (cam sc : bool) (s : Session) :
  (cam = true → sc = false) →
  sound s → sound (with_scanned sc (with_showCamera cam s)).
Proof.
  unfold sound, choices_rendered. simpl. tauto.
Qed.

Lemma sound_selected `{StringRuntime} (choice : value) (s : Session) :
  choice ∈ choices_rendered s →
  sound s → sound (with_selectedAnswer choice s).
Proof.
  unfold sound. intros Hin (Hcam & Hq & Hnone & Hsel & Hres).
  change (choices_rendered (with_selectedAnswer choice s))
    with (choices_rendered s).
  simpl. split_and!; [done..| |by right|done].
  intros Hno. revert Hin. unfold choices_rendered. rewrite Hno.
  by intros ?%elem_of_nil.
Qed.

Lemma sound_stored `{StringRuntime} (data : value) (s : Session) :
  sound s →
  sound (with_showResult false
           (with_selectedAnswer VNull
              (with_questionData (Some (stored_question data)) s))).
Proof.
  unfold sound. intros (Hcam & _). simpl. split_and!; [done| |done|by left|done].
  intros q [= <-]. unfold stored_question. split.
  - rewrite lookup_insert_ne by done. by rewrite lookup_insert_eq.
  - by rewrite lookup_insert_eq.
Qed.

Lemma sound_reset `{StringRuntime} (s : Session) :
  sound s → sound (final (resetForNextQuestion s)).
Proof.
  unfold sound. intros _. simpl. split_and!; [done..|by left|done].
Qed.

Lemma sound_submitted `{StringRuntime} (s : Session) :
  sound s → sound (final (submitAnswer s)).
Proof.
  intros Hs.
  destruct (submitAnswer_cases s)
    as [-> | [[-> _] | (q & Hq & Hverdict & -> & _)]].
  - done.
  - by apply (sound_same_cells s).
  - apply (sound_same_cells (with_showResult true s)); [done..|].
    destruct Hs as (Hcam & Hstored & Hnone & Hsel & Hres).
    destruct (isCorrect_true _ _ Hverdict) as (a & e & Ha & He & Hlower).
    destruct (Hstored q Hq) as [_ Hblue].
    unfold get_prop in He. rewrite Hblue in He. simpl in He.
    injection He as <-.
    unfold sound.
    change (choices_rendered (with_showResult true s))
      with (choices_rendered s).
    simpl. split_and!; [done|done| |done|].
    + intros Hno. congruence.
    + intros _. exists a. split; [|done].
      destruct Hsel as [Hnull | Hin]; [congruence | by rewrite <- Ha].
Qed.

Lemma sound_react `{StringRuntime} (e : Event) (s : Session) :
  sound s → sound (final (react e s)).
Proof.
  intros Hs. destruct e as [granted | url | c | data | reply | []]; simpl react.
  - by apply (sound_same_cells s).
  - rewrite handleDeepLink_run.
    destruct (includes url "postman.com"); [by apply (sound_same_cells s) | done].
  - unfold press.
    destruct (rendered c s && negb (disabled c s)) eqn:Hon; [|done].
    destruct c as [ | | i | | ]; simpl handler_of.
    + by apply (sound_camera true false).
    + apply (sound_same_cells (with_scanned (scanned s) (with_showCamera false s)));
        [done..|]. by apply sound_camera.
    + unfold mbind, M_bind, read. simpl.
      destruct (choices_rendered s !! i) as [choice|] eqn:Hchoice; [|done].
      apply sound_selected; [|done]. by eapply list_elem_of_lookup_2.
    + by apply sound_submitted.
    + by apply (sound_camera true false).
  - unfold onBarcodeScanned.
    destruct (screen s); try done.
    destruct (scanned s); [done|].
    rewrite handleBarCodeScanned_run.
    destruct (includes data "postman.com" || includes data "http").
    + apply (sound_same_cells (with_scanned true (with_showCamera false s)));
        [done..|]. by apply sound_camera.
    + apply (sound_same_cells (with_scanned false (with_showCamera false s)));
        [done..|]. by apply sound_camera.
  - destruct reply as [[[data|err]]|err].
    + apply (sound_same_cells
               (with_showResult false
                  (with_selectedAnswer VNull
                     (with_questionData (Some (stored_question data)) s))));
        [done..|]. by apply sound_stored.
    + by apply (sound_same_cells s).
    + by apply (sound_same_cells s).
  - by apply sound_reset.
Qed.

(** A handler leaves [loading] set only if it was set before or the handler
    issued a request; a settlement always clears it. *)
Lemma react_loading `{StringRuntime} (e : Event) (s : Session) :
  loading (final (react e s)) = true →
  (∀ reply, e ≠ FetchSettled reply)
  ∧ (loading s = true ∨ 0 < length (requests_of (trace (react e s)))).
Proof.
  destruct e as [granted | url | c | data | reply | []]; simpl react.
  - simpl. auto.
  - rewrite handleDeepLink_run.
    destruct (includes url "postman.com"); simpl; [|by auto].
    intros _. split; [done|]. right. lia.
  - unfold press.
    destruct (rendered c s && negb (disabled c s)) eqn:Hon; [|simpl; by auto].
    destruct c as [ | | i | | ]; simpl handler_of; try (simpl; by auto).
    + unfold mbind, M_bind, read. simpl.
      destruct (choices_rendered s !! i); simpl; by auto.
    + destruct (submitAnswer_cases s)
        as [-> | [[-> _] | (q & _ & _ & -> & _)]]; simpl; by auto.
  - unfold onBarcodeScanned.
    destruct (screen s); try (simpl; by auto).
    destruct (scanned s); [simpl; by auto|].
    rewrite handleBarCodeScanned_run.
    destruct (includes data "postman.com" || includes data "http"); simpl.
    + intros _. split; [done|]. right. lia.
    + by auto.
  - by destruct reply as [[[data|err]]|err].
  - simpl. auto.
Qed.

Lemma consistent_step `{StringRuntime} (e : Event) (w : World) :
  consistent w → consistent (step e w).
Proof.
  destruct w as [s n]. unfold consistent, step. cbn [session inflight].
  intros [Hsound Hload].
  destruct e as [granted | url | c | data | reply | cb].
  5: { destruct n as [|n]; [by split|]. cbn [session inflight].
       split; [by apply sound_react|].
       intros Hl. apply react_loading in Hl as [Hne _]. by destruct (Hne reply). }
  all: cbn [session inflight]; split; [by apply sound_react|];
    intros Hl; apply react_loading in Hl as [_ [Hl | Hl]];
    [specialize (Hload Hl); lia | lia].
Qed.

Lemma reachable_consistent `{StringRuntime} (w : World) :
  reachable w → consistent w.
Proof.
  induction 1 as [|e w _ IH].
  - split; [|done]. unfold sound. simpl. split_and!; [done..|by left|done].
  - by apply consistent_step.
Qed.

Lemma reachable_run `{StringRuntime} (events : list Event) :
  reachable (run events).
Proof.
  unfold run. induction events as [|e events IH] using rev_ind.
  - apply reachable_start.
  - rewrite foldl_snoc. by apply reachable_step.
Qed.

Lemma questionContainer_rendered_inv (s : Session) :
  questionContainer_rendered s = true →
  loading s = false ∧ ∃ q, questionData s = Some q.
Proof.
  unfold questionContainer_rendered, screen.
  destruct (hasPermission s) as [[|]|], (showCamera s), (loading s),
    (questionData s) as [q|]; try done.
  intros _. split; [done|]. by exists q.
Qed.

Lemma stored_question_key_of_reachable `{StringRuntime} (w : World)
    (q : gmap string value) :
  reachable w →
  questionData (session w) = Some q →
  get_prop q "url" = VStr answerUrl ∧ get_prop q "Answer" = VStr "blue".
Proof.
  intros Hw Hq.
  destruct (reachable_consistent w Hw) as [(_ & Hstored & _) _].
  destruct (Hstored q Hq) as [Hurl Hanswer].
  unfold get_prop. by rewrite Hurl, Hanswer.
Qed.

(** ** What holds in every session the component can reach *)

(** X1: whenever the camera view is on screen, [scanned] is unset, so a
    decoded code always reaches [handleBarCodeScanned]. *)
Theorem scanner_is_live `{StringRuntime} (w : World) (data : string) :
  reachable w →
  screen (session w) = Scanning →
  scanned (session w) = false
  ∧ onBarcodeScanned data (session w) = handleBarCodeScanned data (session w).
Proof.
  intros Hw Hscreen.
  destruct (reachable_consistent w Hw) as [(Hcam & _) _].
  assert (Hscanned : scanned (session w) = false).
  { apply Hcam. revert Hscreen. unfold screen.
    destruct (hasPermission (session w)) as [[|]|]; try done.
    destruct (showCamera (session w)); [done|].
    destruct (loading (session w)); [done|].
    by destruct (questionData (session w)), (showResult (session w)). }
  split; [done|]. unfold onBarcodeScanned. by rewrite Hscreen, Hscanned.
Qed.

Lemma scanner_is_live_witness :
  onBarcodeScanned "hunt-clue-17"
    (session (@run ascii_runtime (take 2 example_events)))
  = handleBarCodeScanned "hunt-clue-17"
      (session (@run ascii_runtime (take 2 example_events))).
Proof.
  apply (@scanner_is_live ascii_runtime
           (@run ascii_runtime (take 2 example_events)) "hunt-clue-17").
  - apply reachable_run.
  - reflexivity.
Defined.

(** X2: every question the session ever holds carries the fixed answer
    endpoint as its [url] and "blue" as its [Answer]. *)
Theorem stored_question_key `{StringRuntime} (w : World)
    (q : gmap string value) :
  reachable w →
  questionData (session w) = Some q →
  get_prop q "url" = VStr answerUrl ∧ get_prop q "Answer" = VStr "blue".
Proof.
  intros Hw Hq.
  destruct (reachable_consistent w Hw) as [(_ & Hstored & _) _].
  destruct (Hstored q Hq) as [Hurl Hanswer].
  unfold get_prop. by rewrite Hurl, Hanswer.
Qed.

Lemma stored_question_key_witness :
  get_prop (stored_question sample_payload) "Answer" = VStr "blue".
Proof.
  apply (@stored_question_key ascii_runtime
           (@run ascii_runtime (take 4 example_events))
           (stored_question sample_payload)).
  - apply reachable_run.
  - reflexivity.
Defined.

(** X3: a session that holds no question has no selected answer and shows
    no result. *)
Theorem no_question_no_answer `{StringRuntime} (w : World) :
  reachable w →
  questionData (session w) = None →
  selectedAnswer (session w) = VNull ∧ showResult (session w) = false.
Proof.
  intros Hw Hq.
  destruct (reachable_consistent w Hw) as [(_ & _ & Hnone & _) _]. auto.
Qed.

Lemma no_question_no_answer_witness :
  selectedAnswer
    (session (@run ascii_runtime
                (example_events ++ [AlertButtonPressed CbResetForNextQuestion])))
  = VNull.
Proof.
  apply (@no_question_no_answer ascii_runtime
           (@run ascii_runtime
              (example_events ++ [AlertButtonPressed CbResetForNextQuestion]))).
  - apply reachable_run.
  - reflexivity.
Defined.

(** X4: [loading] is set only while a request that was issued has not yet
    settled. *)
Theorem loading_has_pending_request `{StringRuntime} (w : World) :
  reachable w →
  loading (session w) = true →
  0 < inflight w.
Proof.
  intros Hw Hl. destruct (reachable_consistent w Hw) as [_ Hload]. auto.
Qed.

Lemma loading_has_pending_request_witness :
  0 < inflight (@run ascii_runtime (take 3 example_events)).
Proof.
  apply (@loading_has_pending_request ascii_runtime).
  - apply reachable_run.
  - reflexivity.
Defined.

(** X5: a selected answer is always one of the choices offered by the
    question currently stored. *)
Theorem selection_is_a_choice `{StringRuntime} (w : World) :
  reachable w →
  selectedAnswer (session w) ≠ VNull →
  selectedAnswer (session w) ∈ choices_rendered (session w).
Proof.
  intros Hw Hsel.
  destruct (reachable_consistent w Hw) as [(_ & _ & _ & [Hnull | Hin] & _) _];
    [by destruct Hsel | done].
Qed.

Lemma selection_is_a_choice_witness :
  VStr "blue"
  ∈ choices_rendered (session (@run ascii_runtime (take 5 example_events))).
Proof.
  apply (@selection_is_a_choice ascii_runtime
           (@run ascii_runtime (take 5 example_events))).
  - apply reachable_run.
  - discriminate.
Defined.

(** X6: the result is shown only for a question one of whose choices is
    the string "blue" up to letter case. *)
Theorem result_needs_blue_choice `{StringRuntime} (w : World) :
  reachable w →
  showResult (session w) = true →
  ∃ a, VStr a ∈ choices_rendered (session w)
       ∧ toLowerCase a = toLowerCase "blue".
Proof.
  intros Hw Hres.
  destruct (reachable_consistent w Hw) as [(_ & _ & _ & _ & Hblue) _]. auto.
Qed.

Lemma result_needs_blue_choice_witness :
  ∃ a, VStr a ∈ choices_rendered (session (@run ascii_runtime example_events))
       ∧ ascii_toLowerCase a = ascii_toLowerCase "blue".
Proof.
  apply (@result_needs_blue_choice ascii_runtime
           (@run ascii_runtime example_events)).
  - apply reachable_run.
  - reflexivity.
Defined.

(** X7: in every reachable session, a press on the submit button on screen
    announces "Correct!" exactly when the selected answer is a string equal
    to "blue" up to letter case, "Incorrect" for any other string, and
    "Error" when the selected choice is not a string. *)
Theorem submit_verdict_when_reachable `{StringRuntime} (w : World) :
  reachable w →
  rendered SubmitButton (session w) = true →
  alerts_of (trace (press SubmitButton (session w))) =
    match selectedAnswer (session w) with
    | VStr a =>
        if bool_decide (toLowerCase a = toLowerCase "blue")
        then [Alert "Correct!" "Great job! You got it right!"
                [{| text := "Next Question";
                    onPress := CbResetForNextQuestion |}]]
        else [Alert "Incorrect" "Try again!" []]
    | _ => [Alert "Error" "Failed to submit answer." []]
    end.
Proof.
  intros Hw Hon. set (s := session w) in *.
  assert (Hparts := Hon). unfold rendered in Hparts.
  apply andb_true_iff in Hparts as [Hshown Hsel].
  destruct (questionContainer_rendered_inv s Hshown) as [Hload [q Hq]].
  destruct (stored_question_key_of_reachable w q Hw Hq) as [Hurl Hanswer].
  unfold press. rewrite Hon. unfold disabled. rewrite Hload.
  simpl negb. cbn [andb handler_of].
  rewrite (submitAnswer_passed s q); [|done|done|by rewrite Hurl].
  unfold isCorrect. rewrite Hanswer.
  destruct (selectedAnswer s) as [| | | |a| |]; try done.
  simpl.
  rewrite (bool_decide_ext (Some (toLowerCase a) = Some (toLowerCase "blue"))
             (toLowerCase a = toLowerCase "blue")) by (split; congruence).
  by destruct (bool_decide (toLowerCase a = toLowerCase "blue")).
Qed.

Lemma submit_verdict_when_reachable_witness :
  alerts_of (trace (@press ascii_runtime SubmitButton
                      (session (@run ascii_runtime (take 5 example_events)))))
  = [Alert "Correct!" "Great job! You got it right!"
       [{| text := "Next Question"; onPress := CbResetForNextQuestion |}]].
Proof.
  apply (@submit_verdict_when_reachable ascii_runtime
           (@run ascii_runtime (take 5 example_events))).
  - apply reachable_run.
  - reflexivity.
Defined.

(** ** Scanning *)

Lemma camera_closed_not_scanning (s : Session) :
  showCamera s = false → screen s ≠ Scanning.
Proof.
  unfold screen. intros ->.
  destruct (hasPermission s) as [[|]|]; try done.
  destruct (loading s); [done|].
  by destruct (questionData s), (showResult s).
Qed.

(** X8: a handled decode closes the camera, so the next render has no
    camera view; but [handleBarCodeScanned] has no guard of its own: when a
    second code is delivered to it from the same render, it runs again with
    the effects it would have had alone, and a recognized second code issues
    a request of its own. *)
Theorem decode_twice_same_render (first second : string) (s : Session) :
  let r1 := handleBarCodeScanned first s in
  let r2 := handleBarCodeScanned second (final r1) in
  showCamera (final r1) = false
  ∧ screen (final r1) ≠ Scanning
  ∧ trace r2 = trace (handleBarCodeScanned second s)
  ∧ (recognized first → recognized second →
     trace r1 ++ trace r2
     = [HttpRequest GET first None; HttpRequest GET second None]).
Proof.
  cbv zeta.
  assert (Hclosed : showCamera (final (handleBarCodeScanned first s)) = false).
  { rewrite handleBarCodeScanned_run.
    by destruct (includes first "postman.com" || includes first "http"). }
  split_and!.
  - done.
  - by apply camera_closed_not_scanning.
  - rewrite !(handleBarCodeScanned_run second).
    by destruct (includes second "postman.com" || includes second "http").
  - intros Hfirst%recognized_iff_includes Hsecond%recognized_iff_includes.
    rewrite !handleBarCodeScanned_run. by rewrite Hfirst, Hsecond.
Qed.

Lemma decode_twice_same_render_witness :
  trace (handleBarCodeScanned "https://example.mock.pstmn.io/q1" scanning)
  ++ trace (handleBarCodeScanned "https://example.mock.pstmn.io/q2"
              (final (handleBarCodeScanned "https://example.mock.pstmn.io/q1"
                        scanning)))
  = [HttpRequest GET "https://example.mock.pstmn.io/q1" None;
     HttpRequest GET "https://example.mock.pstmn.io/q2" None].
Proof.
  apply (decode_twice_same_render "https://example.mock.pstmn.io/q1"
           "https://example.mock.pstmn.io/q2" scanning);
    apply recognized_iff_includes; reflexivity.
Defined.

(** X9: opening the scanner from the welcome, question or result screen
    and cancelling it comes back to the same screen with the session as it
    was, [scanned] being unset; neither step has any effect outside. *)
Theorem scan_then_cancel `{StringRuntime} (s : Session) :
  screen s = Idle ∨ screen s = QuestionShown ∨ screen s = ResultShown →
  let opened := startScanning s in
  let closed := press CancelButton (final opened) in
  screen (final opened) = Scanning
  ∧ final closed = with_scanned false s
  ∧ screen (final closed) = screen s
  ∧ trace opened = [] ∧ trace closed = [].
Proof.
  intros Hscreen.
  destruct (screen_not_loading s Hscreen) as (Hload & Hcam & Hperm).
  cbv zeta. unfold press, rendered, screen. simpl.
  rewrite Hperm, Hload. simpl. split_and!; try done.
  - destruct s. simpl in *. by subst.
  - by rewrite Hperm, Hload, Hcam.
Qed.

Lemma scan_then_cancel_witness :
  final (@press ascii_runtime CancelButton
           (final (startScanning (showing sample_payload (VStr "red") true))))
  = with_scanned false (showing sample_payload (VStr "red") true).
Proof.
  apply (@scan_then_cancel ascii_runtime
           (showing sample_payload (VStr "red") true)).
  right. right. reflexivity.
Defined.

(** ** Fetching and submitting *)

(** X10: after a successful fetch no answer is selected and no result is
    shown, so the submit button is off screen and a submit does nothing;
    the stored question is the one just fetched, whatever was stored
    before. *)
Theorem fresh_question_unanswered `{StringRuntime} (url : string)
    (data : value) (s : Session) :
  let s' := final (fetchQuestionData url (ok_response data) s) in
  selectedAnswer s' = VNull
  ∧ showResult s' = false
  ∧ loading s' = false
  ∧ rendered SubmitButton s' = false
  ∧ submitAnswer s' = nothing_happened s'
  ∧ ∀ other : Session,
      questionData (final (fetchQuestionData url (ok_response data) other))
      = questionData s'.
Proof.
  cbv zeta. rewrite fetchQuestionData_stored. cbn [final].
  split_and!; try done.
  unfold rendered. simpl. apply andb_false_r.
Qed.

(** X11: submitting twice in a row ends in the same session and announces
    the same thing as submitting once. *)
Theorem submit_twice `{StringRuntime} (s : Session) :
  let once := submitAnswer s in
  final (submitAnswer (final once)) = final once
  ∧ trace (submitAnswer (final once)) = trace once.
Proof.
  cbv zeta.
  assert (Hblocked : submitAnswer s = nothing_happened s →
            final (submitAnswer (final (submitAnswer s))) = final (submitAnswer s)
            ∧ trace (submitAnswer (final (submitAnswer s))) = trace (submitAnswer s)).
  { intros Hnothing. rewrite Hnothing. cbn [final nothing_happened].
    by rewrite Hnothing. }
  destruct (truthy (selectedAnswer s)) eqn:Hsel;
    [|apply Hblocked, submitAnswer_blocked; auto].
  destruct (questionData s) as [q|] eqn:Hq;
    [|apply Hblocked, submitAnswer_blocked; auto].
  destruct (truthy (get_prop q "url")) eqn:Hurl;
    [|apply Hblocked, submitAnswer_blocked; eauto].
  clear Hblocked. rewrite (submitAnswer_passed s q) by done.
  destruct (isCorrect (selectedAnswer s) q) as [[|]|e] eqn:Hverdict;
    cbn [final trace];
    rewrite (submitAnswer_passed _ q) by done;
    simpl selectedAnswer; by rewrite Hverdict.
Qed.

(** X12: the first of two overlapping fetches to settle clears [loading]
    although the other request is still pending. *)
Theorem settlement_clears_loading `{StringRuntime} (w : World)
    (reply : Completion Response) :
  1 < inflight w →
  let w' := step (FetchSettled reply) w in
  loading (session w') = false ∧ 0 < inflight w'.
Proof.
  destruct w as [s [|[|n]]]; cbn [inflight]; try lia.
  intros _. cbv zeta. unfold step. cbn [inflight session react].
  split; [|lia]. by destruct reply as [[[data|e]]|e].
Qed.

Lemma settlement_clears_loading_witness :
  let w := @run ascii_runtime
             [UrlOpened "https://a.postman.com/q1";
              UrlOpened "https://b.postman.com/q2"] in
  let w' := @step ascii_runtime (FetchSettled (ok_response sample_payload)) w in
  loading (session w') = false ∧ 0 < inflight w'.
Proof.
  apply (@settlement_clears_loading ascii_runtime). vm_compute. lia.
Defined.

(** ** What each event can touch *)

(** X13: the stored question changes only when a fetch settles with a
    decoded body or "Next Question" is pressed; no other event replaces or
    drops it, and no other event clears the flag [showResult] once it is
    set. *)
Theorem question_kept_unless_renewed `{StringRuntime} (e : Event)
    (s : Session) :
  renews e = false →
  questionData (final (react e s)) = questionData s
  ∧ (showResult s = true → showResult (final (react e s)) = true).
Proof.
  intros Hrenews.
  destruct e as [granted | url | c | data | reply | []]; simpl react.
  - done.
  - rewrite handleDeepLink_run. by destruct (includes url "postman.com").
  - unfold press.
    destruct (rendered c s && negb (disabled c s)); [|done].
    destruct c as [ | | i | | ]; simpl handler_of; try done.
    + unfold mbind, M_bind, read. simpl.
      by destruct (choices_rendered s !! i).
    + by destruct (submitAnswer_cases s)
        as [-> | [[-> _] | (q & _ & _ & -> & _)]].
  - unfold onBarcodeScanned.
    destruct (screen s); try done.
    destruct (scanned s); [done|].
    rewrite handleBarCodeScanned_run.
    by destruct (includes data "postman.com" || includes data "http").
  - by destruct reply as [[[data|err]]|err].
  - discriminate.
Qed.

Lemma question_kept_unless_renewed_witness :
  let s := showing sample_payload (VStr "red") true in
  showResult (final (@react ascii_runtime (Pressed SubmitButton) s)) = true.
Proof.
  apply (@question_kept_unless_renewed ascii_runtime (Pressed SubmitButton)
           (showing sample_payload (VStr "red") true)); reflexivity.
Defined.

(** X14: only the settlement of the permission request changes
    [hasPermission]; under every other event a denied permission stays
    denied and the screen stays on "No access to camera". *)
Theorem permission_only_from_request `{StringRuntime} (e : Event)
    (s : Session) :
  (∀ granted, e ≠ PermissionSettled granted) →
  hasPermission (final (react e s)) = hasPermission s
  ∧ (screen s = NoCameraAccess → screen (final (react e s)) = NoCameraAccess).
Proof.
  intros Hother.
  assert (Hperm : hasPermission (final (react e s)) = hasPermission s).
  { destruct e as [granted | url | c | data | reply | []]; simpl react.
    - by destruct (Hother granted).
    - rewrite handleDeepLink_run. by destruct (includes url "postman.com").
    - unfold press.
      destruct (rendered c s && negb (disabled c s)); [|done].
      destruct c as [ | | i | | ]; simpl handler_of; try done.
      + unfold mbind, M_bind, read. simpl.
        by destruct (choices_rendered s !! i).
      + by destruct (submitAnswer_cases s)
          as [-> | [[-> _] | (q & _ & _ & -> & _)]].
    - unfold onBarcodeScanned.
      destruct (screen s); try done.
      destruct (scanned s); [done|].
      rewrite handleBarCodeScanned_run.
      by destruct (includes data "postman.com" || includes data "http").
    - by destruct reply as [[[data|err]]|err].
    - done. }
  split; [done|]. unfold screen. rewrite Hperm.
  destruct (hasPermission s) as [[|]|]; try done.
  destruct (showCamera s); [done|]. destruct (loading s); [done|].
  by destruct (questionData s), (showResult s).
Qed.

Lemma permission_only_from_request_witness :
  let denied := with_hasPermission (Some false) initial in
  screen (final (@react ascii_runtime (UrlOpened "https://a.postman.com/q1") denied))
  = NoCameraAccess.
Proof.
  apply (@permission_only_from_request ascii_runtime
           (UrlOpened "https://a.postman.com/q1")
           (with_hasPermission (Some false) initial)).
  - discriminate.
  - reflexivity.
Defined.

(** X15: which presses can do anything: none while the permission request
    is pending or while the loading indicator is shown, only Cancel on the
    camera view, and only the scan button on the welcome screen. *)
Theorem controls_by_screen `{StringRuntime} (s : Session) (c : Control) :
  (screen s = RequestingPermission ∨ screen s = Loading →
   press c s = nothing_happened s)
  ∧ (screen s = Scanning → c ≠ CancelButton → press c s = nothing_happened s)
  ∧ (screen s = Idle → c ≠ ScanButton → press c s = nothing_happened s).
Proof.
  unfold press, rendered, questionContainer_rendered. split_and!.
  - intros [-> | ->]; by destruct c.
  - intros -> Hc. by destruct c.
  - intros -> Hc. by destruct c.
Qed.

Lemma controls_by_screen_witness :
  @press ascii_runtime SubmitButton scanning = nothing_happened scanning
  ∧ @press ascii_runtime NewScanButton
      (with_loading true (showing sample_payload VNull false))
    = nothing_happened
        (with_loading true (showing sample_payload VNull false))
  ∧ @press ascii_runtime NewScanButton (with_hasPermission (Some true) initial)
    = nothing_happened (with_hasPermission (Some true) initial).
Proof.
  split_and!.
  - destruct (@controls_by_screen ascii_runtime scanning SubmitButton)
      as (_ & Hcamera & _).
    apply Hcamera; [reflexivity | discriminate].
  - destruct (@controls_by_screen ascii_runtime
                (with_loading true (showing sample_payload VNull false))
                NewScanButton) as (Hinactive & _).
    apply Hinactive. right. reflexivity.
  - destruct (@controls_by_screen ascii_runtime
                (with_hasPermission (Some true) initial) NewScanButton)
      as (_ & _ & Hwelcome).
    apply Hwelcome; [reflexivity | discriminate].
Defined.

(** ** The reward *)

(** X16: the reward shown with the result is never falsy: a missing or
    empty reward list, and a first reward of 0, are all shown as 10; any
    other first reward is shown as it is. *)
Theorem points_shown_default (q : gmap string value) :
  truthy (points_shown q) = true
  ∧ (q !! "pointsRewarded" = None → points_shown q = VNum 10)
  ∧ (q !! "pointsRewarded" = Some (VArr []) → points_shown q = VNum 10)
  ∧ (∀ (n : Z) (rest : list value),
       q !! "pointsRewarded" = Some (VArr (VNum n :: rest)) →
       points_shown q = VNum (if (n =? 0)%Z then 10 else n)).
Proof.
  unfold points_shown, get_prop. split_and!.
  - by destruct (truthy (optional_first (default VUndefined (q !! "pointsRewarded"))))
      eqn:Hfirst.
  - by intros ->.
  - by intros ->.
  - intros n rest ->. simpl. by destruct (n =? 0)%Z.
Qed.

Lemma points_shown_default_witness :
  points_shown (<["pointsRewarded" := VArr [VNum 0; VNum 5]]> ∅) = VNum 10
  ∧ points_shown (<["pointsRewarded" := VArr [VNum 25]]> ∅) = VNum 25.
Proof.
  split.
  - destruct (points_shown_default
                (<["pointsRewarded" := VArr [VNum 0; VNum 5]]> ∅))
      as (_ & _ & _ & Hfirst).
    exact (Hfirst 0%Z [VNum 5] eq_refl).
  - destruct (points_shown_default (<["pointsRewarded" := VArr [VNum 25]]> ∅))
      as (_ & _ & _ & Hfirst).
    exact (Hfirst 25%Z [] eq_refl).
Defined.

(** ** From a scan to a question *)

(** X17: from the welcome screen, opening the scanner, decoding a
    recognized code and the fetch settling with a decoded body lead through
    the camera view and the loading indicator to a session with the camera
    closed, [loading] cleared, the fetched payload stored and nothing
    selected (the condition of line 197 for the question container), with
    exactly one request, to the decoded text; if instead the fetch fails,
    the welcome screen is back and nothing is stored. *)
Theorem scan_to_question `{StringRuntime} (s : Session) (data : string)
    (reply : Completion Response) :
  screen s = Idle →
  recognized data →
  let opened := react (Pressed ScanButton) s in
  let decoded := react (BarcodeScanned data) (final opened) in
  let settled := react (FetchSettled reply) (final decoded) in
  screen (final opened) = Scanning
  ∧ screen (final decoded) = Loading
  ∧ trace opened ++ trace decoded = [HttpRequest GET data None]
  ∧ requests_of (trace settled) = []
  ∧ (∀ payload, reply = ok_response payload →
       questionData (final settled) = Some (stored_question payload)
       ∧ hasPermission (final settled) = Some true
       ∧ showCamera (final settled) = false
       ∧ loading (final settled) = false
       ∧ selectedAnswer (final settled) = VNull
       ∧ showResult (final settled) = false
       ∧ trace settled = [])
  ∧ ((∀ payload, reply ≠ ok_response payload) →
       screen (final settled) = Idle
       ∧ questionData (final settled) = None).
Proof.
  intros Hidle Hrec.
  destruct (screen_not_loading s) as (Hload & Hcam & Hperm); [by auto|].
  assert (Hq : questionData s = None).
  { revert Hidle. unfold screen. rewrite Hperm, Hcam, Hload.
    by destruct (questionData s), (showResult s). }
  apply recognized_iff_includes in Hrec.
  cbv zeta. cbn [react].
  assert (Hopened : press ScanButton s
                    = {| final := with_scanned false (with_showCamera true s);
                         trace := []; completion := Normal () |}).
  { unfold press, rendered, disabled. by rewrite Hidle. }
  rewrite Hopened. cbn [final trace].
  assert (Hdecoded :
    onBarcodeScanned data (with_scanned false (with_showCamera true s))
    = {| final := with_loading true
                    (with_showCamera false
                       (with_scanned true
                          (with_scanned false (with_showCamera true s))));
         trace := [HttpRequest GET data None]; completion := Normal () |}).
  { unfold onBarcodeScanned, screen. simpl. rewrite Hperm.
    by rewrite handleBarCodeScanned_run, Hrec. }
  rewrite Hdecoded. cbn [final trace].
  split_and!.
  - unfold screen. simpl. by rewrite Hperm.
  - unfold screen. simpl. by rewrite Hperm.
  - done.
  - by destruct reply as [[[payload|e]]|e].
  - intros payload ->. rewrite fetchQuestionData_resumed_stored.
    simpl. by rewrite Hperm.
  - intros Hfailed.
    destruct (fetchQuestionData_resumed_failed reply
                (with_loading true
                   (with_showCamera false
                      (with_scanned true
                         (with_scanned false (with_showCamera true s)))))
                Hfailed) as [e ->].
    unfold screen. simpl. by rewrite Hperm, Hq.
Qed.

Lemma scan_to_question_witness :
  let s := with_hasPermission (Some true) initial in
  let data := "https://example.mock.pstmn.io/q1" in
  let opened := @react ascii_runtime (Pressed ScanButton) s in
  let decoded := @react ascii_runtime (BarcodeScanned data) (final opened) in
  questionData
    (final (@react ascii_runtime (FetchSettled (ok_response sample_payload))
              (final decoded)))
  = Some (stored_question sample_payload)
  ∧ screen (final (@react ascii_runtime
                     (FetchSettled (Throw (TypeError "Network request failed")))
                     (final decoded))) = Idle.
Proof.
  cbv zeta. split.
  - destruct (@scan_to_question ascii_runtime
                (with_hasPermission (Some true) initial)
                "https://example.mock.pstmn.io/q1"
                (ok_response sample_payload) eq_refl)
      as (_ & _ & _ & _ & Hstored & _).
    + apply recognized_iff_includes. reflexivity.
    + apply (Hstored sample_payload eq_refl).
  - destruct (@scan_to_question ascii_runtime
                (with_hasPermission (Some true) initial)
                "https://example.mock.pstmn.io/q1"
                (Throw (TypeError "Network request failed")) eq_refl)
      as (_ & _ & _ & _ & _ & Hfailed).
    + apply recognized_iff_includes. reflexivity.
    + apply Hfailed. discriminate.
Defined.

(** ** Selecting a choice *)

(** X18: on the question or result screen, of two presses on choice
    buttons the later one decides the selected answer; nothing else in the
    session changes, and a press beyond the last choice does nothing. *)
Theorem last_choice_wins `{StringRuntime} (s : Session) (i j : nat)
    (choice : value) :
  questionContainer_rendered s = true →
  choices_rendered s !! j = Some choice →
  final (press (ChoiceButton j) (final (press (ChoiceButton i) s)))
    = with_selectedAnswer choice s
  ∧ (length (choices_rendered s) ≤ i →
     press (ChoiceButton i) s = nothing_happened s).
Proof.
  intros Hshown Hj.
  assert (Hpress : ∀ (k : nat) (t : Session),
    questionContainer_rendered t = true →
    press (ChoiceButton k) t
    = match choices_rendered t !! k with
      | Some v => {| final := with_selectedAnswer v t; trace := [];
                     completion := Normal () |}
      | None => nothing_happened t
      end).
  { intros k t Ht. unfold press, rendered, disabled. rewrite Ht.
    rewrite andb_true_r, andb_true_l.
    destruct (choices_rendered t !! k) as [v|] eqn:Hk.
    - rewrite bool_decide_eq_true_2 by (by eapply lookup_lt_Some).
      unfold handler_of, mbind, M_bind, read. simpl. by rewrite Hk.
    - by rewrite bool_decide_eq_false_2
        by (apply lookup_ge_None in Hk; lia). }
  split.
  - rewrite (Hpress i s Hshown).
    destruct (choices_rendered s !! i) as [v|]; cbn [final nothing_happened].
    + rewrite (Hpress j); [|done].
      change (choices_rendered (with_selectedAnswer v s))
        with (choices_rendered s).
      by rewrite Hj.
    + by rewrite (Hpress j s Hshown), Hj.
  - intros Hi. rewrite (Hpress i s Hshown).
    by rewrite (proj2 (lookup_ge_None (choices_rendered s) i) Hi).
Qed.

Lemma last_choice_wins_witness :
  final (@press ascii_runtime (ChoiceButton 2)
           (final (@press ascii_runtime (ChoiceButton 0)
                     (showing sample_payload VNull false))))
  = showing sample_payload (VStr "green") false.
Proof.
  apply (@last_choice_wins ascii_runtime
           (showing sample_payload VNull false) 0 2 (VStr "green"));
    reflexivity.
Defined.
